(** * OpenAlex search adapter: request construction and result formatting

    A shallow embedding of [openalex.py]: the endpoint and parameter
    tables, [fetch_openalex_data], [openalex_search], [format_work] and
    [format_works_response], with the Python objects they touch.

    - JSON values are an inductive type; a JSON object is an association
      list in insertion order, as a Python [dict] keeps it.
    - The parameter dictionaries are mutable and shared by reference, so
      they live in a store [gmap loc pydict]; a variable holding a
      dictionary holds its location.
    - Raising is a result type; the store survives a raise.
    - The HTTP peer is a function from the requests made so far to the
      outcome of the last one; every request is appended to a trace. *)

From Stdlib Require Import ZArith Ascii String List DecimalString.
From stdpp Require Import base option list gmap strings fin_maps.

Local Open Scope string_scope.
Local Open Scope Z_scope.
Local Set Warnings "-register-all".

(** ** The Python runtime the module relies on *)

(** What CPython provides and this repository does not define: the float
    type with its truth value and [repr], and [repr] on strings. *)
Class PyRuntime := {
  pyfloat : Type;
  float_bool : pyfloat -> bool;
  float_repr : pyfloat -> string;
  str_repr : string -> string;
}.

(** The newline character of the source's string literals. *)
Definition nl : string := String "010"%char EmptyString.

Inductive exn :=
| ValueError (msg : string)
| KeyError (key : string)
| TypeError (msg : string)
| AttributeError (msg : string)
| HTTPStatusError (status : Z)
| JSONDecodeError
| RequestError.

Inductive result (A : Type) :=
| Ok (a : A)
| Raise (e : exn).
Arguments Ok {A} a.
Arguments Raise {A} e.

Definition result_bind {A B} (m : result A) (k : A -> result B) : result B :=
  match m with
  | Ok a => k a
  | Raise e => Raise e
  end.

#[export] Instance result_ret : MRet result := fun _ a => Ok a.
#[export] Instance result_mbind : MBind result := fun _ _ k m => result_bind m k.

Fixpoint result_mapM {A B} (f : A -> result B) (l : list A) : result (list B) :=
  match l with
  | [] => Ok []
  | a :: l' => b ← f a; bs ← result_mapM f l'; Ok (b :: bs)
  end.

Section Model.
Context `{PyRuntime}.

(** ** Values *)

(** A decoded JSON document, and the values of the parameter tables.
    Integers are unbounded, as in Python. *)
Inductive value :=
| VNone
| VBool (b : bool)
| VInt (n : Z)
| VFloat (f : pyfloat)
| VStr (s : string)
| VList (l : list value)
| VDict (d : list (string * value)).

Definition pydict := list (string * value).

Definition type_name (v : value) : string :=
  match v with
  | VNone => "NoneType"
  | VBool _ => "bool"
  | VInt _ => "int"
  | VFloat _ => "float"
  | VStr _ => "str"
  | VList _ => "list"
  | VDict _ => "dict"
  end.

(** [bool(v)]: the truth value tested by [if not data]. *)
Definition py_bool (v : value) : bool :=
  match v with
  | VNone => false
  | VBool b => b
  | VInt n => negb (Z.eqb n 0)
  | VFloat f => float_bool f
  | VStr s => negb (String.eqb s "")
  | VList l => match l with [] => false | _ => true end
  | VDict d => match d with [] => false | _ => true end
  end.

(** The decimal text of an integer. *)
Definition int_str (n : Z) : string := NilZero.string_of_int (Z.to_int n).

(** CPython's default limit on the conversion of an integer to text: 4300
    digits, the sign not counted. An integer has more digits than that
    exactly when its absolute value reaches [int_str_bound]. *)
Definition int_max_str_digits : Z := 4300.
Definition int_str_bound : Z := 10 ^ int_max_str_digits.

(** [str(n)] and [repr(n)] on an integer, which raise beyond the limit. The
    count of [len], at most the machine word, never comes near it and is
    converted with [int_str]. *)
Definition py_int_str (n : Z) : result string :=
  if Z.abs n <? int_str_bound then Ok (int_str n)
  else Raise (ValueError
                ("Exceeds the limit (4300 digits) for integer string conversion; " +:+
                 "use sys.set_int_max_str_digits() to increase the limit")).

(** [repr(v)], used by [str] on the elements of a container, which are
    converted from left to right. *)
Fixpoint py_repr (v : value) : result string :=
  match v with
  | VNone => Ok "None"
  | VBool true => Ok "True"
  | VBool false => Ok "False"
  | VInt n => py_int_str n
  | VFloat f => Ok (float_repr f)
  | VStr s => Ok (str_repr s)
  | VList l =>
      inner ← (fix items (l : list value) : result string :=
                 match l with
                 | [] => Ok ""
                 | [x] => py_repr x
                 | x :: l' =>
                     first ← py_repr x; rest ← items l';
                     Ok (first +:+ ", " +:+ rest)
                 end) l;
      Ok ("[" +:+ inner +:+ "]")
  | VDict d =>
      inner ← (fix items (d : list (string * value)) : result string :=
                 match d with
                 | [] => Ok ""
                 | [(k, x)] => first ← py_repr x; Ok (str_repr k +:+ ": " +:+ first)
                 | (k, x) :: d' =>
                     first ← py_repr x; rest ← items d';
                     Ok (str_repr k +:+ ": " +:+ first +:+ ", " +:+ rest)
                 end) d;
      Ok ("{" +:+ inner +:+ "}")
  end.

(** [format(v, '')], what a replacement field [{...}] of an f-string
    inserts: the string itself, [repr] for everything else. *)
Definition py_format (v : value) : result string :=
  match v with
  | VStr s => Ok s
  | _ => py_repr v
  end.

(** No integer inside [v] is beyond the conversion limit. *)
Fixpoint int_limit_ok (v : value) : bool :=
  match v with
  | VInt n => Z.abs n <? int_str_bound
  | VList l => forallb int_limit_ok l
  | VDict d => forallb (fun kv => int_limit_ok (snd kv)) d
  | _ => true
  end.

(** ** Dictionaries *)

Fixpoint dict_get (k : string) (d : pydict) : option value :=
  match d with
  | [] => None
  | (k', v) :: d' => if String.eqb k k' then Some v else dict_get k d'
  end.

(** [d[k] = v]: an existing key keeps its position, a new key goes last. *)
Fixpoint dict_set (k : string) (v : value) (d : pydict) : pydict :=
  match d with
  | [] => [(k, v)]
  | (k', v') :: d' =>
      if String.eqb k k' then (k, v) :: d' else (k', v') :: dict_set k v d'
  end.

(** [data.get(k, dflt)]; only a [dict] has the method. *)
Definition py_get (data : value) (k : string) (dflt : value) : result value :=
  match data with
  | VDict d => Ok (default dflt (dict_get k d))
  | _ => Raise (AttributeError
                  ("'" +:+ type_name data +:+ "' object has no attribute 'get'"))
  end.

(** [item in container] for a string [item]: key membership on a dict,
    element equality on a list, substring on a string. *)
Fixpoint contains (needle hay : string) : bool :=
  String.prefix needle hay ||
  match hay with
  | EmptyString => false
  | String _ hay' => contains needle hay'
  end.

Definition py_contains (item : string) (container : value) : result bool :=
  match container with
  | VDict d => Ok (bool_decide (is_Some (dict_get item d)))
  | VList l =>
      Ok (existsb (fun x => match x with VStr s => String.eqb s item | _ => false end) l)
  | VStr s => Ok (contains item s)
  | _ => Raise (TypeError
                  ("argument of type '" +:+ type_name container +:+ "' is not iterable"))
  end.

(** The elements a [for] loop or a comprehension draws from [v]. *)
Definition py_iter (v : value) : result (list value) :=
  match v with
  | VList l => Ok l
  | VStr s => Ok (map (fun c => VStr (String c EmptyString)) (list_ascii_of_string s))
  | VDict d => Ok (map (fun kv => VStr (fst kv)) d)
  | _ => Raise (TypeError ("'" +:+ type_name v +:+ "' object is not iterable"))
  end.

Definition py_len (v : value) : result Z :=
  match v with
  | VList l => Ok (Z.of_nat (length l))
  | VStr s => Ok (Z.of_nat (String.length s))
  | VDict d => Ok (Z.of_nat (length d))
  | _ => Raise (TypeError ("object of type '" +:+ type_name v +:+ "' has no len()"))
  end.

(** [v[k]] for a string key [k]. *)
Definition py_getitem (v : value) (k : string) : result value :=
  match v with
  | VDict d =>
      match dict_get k d with
      | Some x => Ok x
      | None => Raise (KeyError k)
      end
  | VList _ => Raise (TypeError "list indices must be integers or slices, not str")
  | VStr _ => Raise (TypeError "string indices must be integers, not 'str'")
  | _ => Raise (TypeError ("'" +:+ type_name v +:+ "' object is not subscriptable"))
  end.

(** [sep.join(items)]: every item has to be a string. *)
Fixpoint join_from (i : Z) (sep : string) (items : list value) : result string :=
  match items with
  | [] => Ok ""
  | x :: items' =>
      match x with
      | VStr s =>
          rest ← join_from (i + 1) sep items';
          Ok (match items' with [] => s | _ => s +:+ sep +:+ rest end)
      | _ => Raise (TypeError
                      ("sequence item " +:+ int_str i +:+ ": expected str instance, "
                       +:+ type_name x +:+ " found"))
      end
  end.

Definition py_join (sep : string) (items : list value) : result string :=
  join_from 0 sep items.

(** ** The formatter *)

(** A replacement field [{data.get(k, 'N/A')}]: the value is read and
    converted to text at once. *)
Definition replacement_field (data : value) (k : string) : result string :=
  v ← py_get data k (VStr "N/A");
  py_format v.

(** The replacement fields of the f-string are evaluated and converted one
    after the other, in the order of the text. *)
Definition format_work (data : value) : result string :=
  if negb (py_bool data) then Ok "No data found."
  else
    title ← replacement_field data "title";
    doi ← replacement_field data "doi";
    journal ← replacement_field data "journal";
    authors ← py_get data "authors" (VList []);
    people ← py_iter authors;
    names ← result_mapM (fun author => py_getitem author "name") people;
    joined ← py_join ", " names;
    publication_date ← replacement_field data "publication_date";
    Ok (nl +:+
        "    Title: " +:+ title +:+ nl +:+
        "    DOI: " +:+ doi +:+ nl +:+
        "    Journal: " +:+ journal +:+ nl +:+
        "    Authors: " +:+ joined +:+ nl +:+
        "    Publication Date: " +:+ publication_date +:+ nl +:+
        "    ").

Definition format_works_response (data : value) : result string :=
  works ← py_get data "results" (VList []);
  items ← py_iter works;
  formatted_works ← result_mapM format_work items;
  count ← py_len works;
  let found_works := "Number of works found: " +:+ int_str count in
  if negb (py_bool works) then Ok "No works found."
  else Ok (String.concat (nl +:+ "---" +:+ nl) formatted_works +:+ nl +:+ found_works).

(** ** The store and the HTTP trace *)

Definition loc := positive.

Record request := {
  req_url : string;
  req_headers : list (string * string);
  req_params : option pydict;
}.

Record response := {
  status_code : Z;
  json_body : option value;
}.

(** [heap] holds the dictionaries that are shared by reference; [sent]
    lists the HTTP requests issued so far, oldest first. *)
Record state := {
  heap : gmap loc pydict;
  sent : list request;
}.

Definition M (A : Type) : Type := state -> result A * state.

#[export] Instance M_ret : MRet M := fun _ a st => (Ok a, st).
#[export] Instance M_mbind : MBind M := fun _ _ k m st =>
  match m st with
  | (Ok a, st') => k a st'
  | (Raise e, st') => (Raise e, st')
  end.

Definition raise {A} (e : exn) : M A := fun st => (Raise e, st).

Definition lift {A} (r : result A) : M A := fun st => (r, st).

(** [obj[k] = v] on the dictionary object at [l]. *)
Definition dict_setitem (l : loc) (k : string) (v : value) : M unit := fun st =>
  (Ok tt, {| heap := alter (dict_set k v) l (heap st); sent := sent st |}).

(** [table[k]] on one of the module's top-level tables. *)
Definition table_getitem {A} (table : gmap string A) (k : string) : M A :=
  match table !! k with
  | Some a => mret a
  | None => raise (KeyError k)
  end.

(** The peer: given every request made so far (the current one last),
    the response to the current one, or none when the transport fails. *)
Variable server : list request -> option response.

(** [await client.get(url, headers=headers, params=params)]; the query
    parameters are read from the dictionary object when the request is
    built. *)
Definition client_get (url : string) (headers : list (string * string))
    (params : option loc) : M response := fun st =>
  let req := {| req_url := url; req_headers := headers;
                req_params := l ← params; heap st !! l |} in
  let st' := {| heap := heap st; sent := sent st ++ [req] |} in
  match server (sent st') with
  | Some r => (Ok r, st')
  | None => (Raise RequestError, st')
  end.

(** httpx: a status outside 200..299 raises. *)
Definition raise_for_status (r : response) : M unit :=
  if (200 <=? status_code r) && (status_code r <=? 299) then mret tt
  else raise (HTTPStatusError (status_code r)).

Definition response_json (r : response) : M value :=
  match json_body r with
  | Some v => mret v
  | None => raise JSONDecodeError
  end.

(** ** Constants and tables *)

(** [RESPONSE_STRUCTURE] is read by no function of the module and has no
    counterpart here. *)

Definition OA_API_BASE : string := "https://api.openalex.org".
Definition USER_AGENT : string := "openalex-search-app/1.0".
Definition MAILTO_ADDRESS : string := "openalextest@gmail.com".

Definition ENDPOINTS : gmap string string :=
  <["works" := "/works"]> (<["authors" := "/authors"]> (<["venues" := "/venues"]>
  (<["institutions" := "/institutions"]> (<["concepts" := "/concepts"]>
  (<["ids" := "/ids"]> ∅))))).

(** The two inner dictionaries of [PARAMS] are objects of the store. *)
Definition works_params : loc := 1%positive.
Definition authors_params : loc := 2%positive.

Definition PARAMS : gmap string loc :=
  <["works" := works_params]> (<["authors" := authors_params]> ∅).

Definition works_defaults : pydict :=
  [("filter", VList [VStr "doi"; VStr "title"; VStr "abstract"]);
   ("sort", VList [VStr "relevance"; VStr "date"]);
   ("page", VInt 1);
   ("per_page", VInt 10)].

Definition authors_defaults : pydict :=
  [("filter", VList [VStr "orcid"; VStr "name"]);
   ("sort", VList [VStr "relevance"; VStr "date"]);
   ("page", VInt 1);
   ("per_page", VInt 10)].

(** The state right after the module is loaded. *)
Definition init_state : state :=
  {| heap := <[works_params := works_defaults]>
               (<[authors_params := authors_defaults]> ∅);
     sent := [] |}.

(** ** The requester *)

Definition fetch_openalex_data (endpoint : string) (params : option loc) : M value :=
  let url := OA_API_BASE +:+ "/" +:+ endpoint in
  let headers := [("User-Agent", USER_AGENT); ("Mailto", MAILTO_ADDRESS)] in
  response ← client_get url headers params;
  raise_for_status response;;
  response_json response.

Definition openalex_search (query endpoint : string) (params : option loc) : M value :=
  if negb (bool_decide (is_Some (ENDPOINTS !! endpoint)))
  then raise (ValueError ("Invalid endpoint: " +:+ endpoint))
  else
    params ← match params with
             | None => table_getitem PARAMS endpoint
             | Some l => mret l
             end;
    dict_setitem params "search" (VStr query);;
    path ← table_getitem ENDPOINTS endpoint;
    data ← fetch_openalex_data path (Some params);
    no_results ← (if negb (py_bool data) then mret true
                  else found ← lift (py_contains "results" data); mret (negb found));
    if (no_results : bool)
    then raise (ValueError ("No data found for query: " +:+ query))
    else mret data.

(** ** Vocabulary of the statements *)

(** The value of the [PARAMS] table in a state: each resource name with the
    contents of its dictionary. *)
Definition PARAMS_value (st : state) : gmap string pydict :=
  omap (fun l => heap st !! l) PARAMS.

(** The dictionary object a call works on: the caller's when one is given,
    else the [PARAMS] entry of the endpoint. *)
Definition selected_params (endpoint : string) (params : option loc) : option loc :=
  match params with
  | Some l => Some l
  | None => PARAMS !! endpoint
  end.

(** The request [fetch_openalex_data] builds for an endpoint path and the
    contents of the parameter dictionary. *)
Definition search_request (path : string) (d : pydict) : request :=
  {| req_url := OA_API_BASE +:+ "/" +:+ path;
     req_headers := [("User-Agent", USER_AGENT); ("Mailto", MAILTO_ADDRESS)];
     req_params := Some d |}.

(** The state in which a call on the dictionary object [l] leaves the
    store and the trace once its request has been issued. *)
Definition requested (query path : string) (l : loc) (st : state) : state :=
  let h := alter (dict_set "search" (VStr query)) l (heap st) in
  {| heap := h;
     sent := sent st ++
       [{| req_url := OA_API_BASE +:+ "/" +:+ path;
           req_headers := [("User-Agent", USER_AGENT); ("Mailto", MAILTO_ADDRESS)];
           req_params := h !! l |}] |}.

(** [d1.update(d2)]: overwrite by key. *)
Definition dict_update (d1 d2 : pydict) : pydict :=
  fold_left (fun acc kv => dict_set (fst kv) (snd kv) acc) d2 d1.

(** The Query Parameters as the specification words them: the Default
    Parameter Set entry, if present, merged with the caller's mapping, then
    [search]. *)
Definition spec_query_parameters (defaults override : option pydict)
    (query : string) : pydict :=
  dict_set "search" (VStr query)
    (dict_update (default [] defaults) (default [] override)).

(** The fixed block of a work record, given the text of its five fields. *)
Definition work_block (title doi journal authors publication_date : string) : string :=
  nl +:+
  "    Title: " +:+ title +:+ nl +:+
  "    DOI: " +:+ doi +:+ nl +:+
  "    Journal: " +:+ journal +:+ nl +:+
  "    Authors: " +:+ authors +:+ nl +:+
  "    Publication Date: " +:+ publication_date +:+ nl +:+
  "    ".

(** An author record whose [name] is a string. *)
Definition is_author_record (a : value) : bool :=
  match a with
  | VDict d => match dict_get "name" d with Some (VStr _) => true | _ => false end
  | _ => false
  end.

(** The value under [k], when there is one, holds no integer beyond the
    conversion limit. *)
Definition field_within_limit (d : pydict) (k : string) : bool :=
  match dict_get k d with
  | Some v => int_limit_ok v
  | None => true
  end.

(** A work record: an empty value, or an object whose [title], [doi],
    [journal] and [publication_date], when present, hold no integer beyond
    the conversion limit and whose [authors], when present, is an array of
    author records. *)
Definition is_work_record (w : value) : bool :=
  negb (py_bool w) ||
  match w with
  | VDict d =>
      field_within_limit d "title" && field_within_limit d "doi" &&
      field_within_limit d "journal" && field_within_limit d "publication_date" &&
      match dict_get "authors" d with
      | None => true
      | Some (VList people) => forallb is_author_record people
      | Some _ => false
      end
  | _ => false
  end.

(** A search response: an object whose [results], when present, is an array
    of work records. *)
Definition is_search_response (data : value) : bool :=
  match data with
  | VDict d =>
      match dict_get "results" d with
      | None => true
      | Some (VList works) => forallb is_work_record works
      | Some _ => false
      end
  | _ => false
  end.

(** The [results] array of a search response, empty when absent. *)
Definition results_of (data : value) : list value :=
  match data with
  | VDict d => match dict_get "results" d with Some (VList works) => works | _ => [] end
  | _ => []
  end.

(** ** Sequences of calls *)

(** One invocation of the tool by the host. *)
Record call := {
  call_query : string;
  call_endpoint : string;
  call_params : option loc;
}.

(** The host invoking the tool once per element, in order; a call that
    raises ends that call only. *)
Fixpoint run_calls (calls : list call) (st : state) : state :=
  match calls with
  | [] => st
  | c :: calls' =>
      run_calls calls'
        (snd (openalex_search (call_query c) (call_endpoint c) (call_params c) st))
  end.

(** Every dictionary of [PARAMS] holds, under each key other than [search],
    what it held when the module was loaded. *)
Definition defaults_preserved (st : state) : Prop :=
  forall e l, PARAMS !! e = Some l ->
    exists d d0,
      heap st !! l = Some d /\ heap init_state !! l = Some d0 /\
      forall k, k <> "search" -> dict_get k d = dict_get k d0.

End Model.

(** ** Closed sample data *)

(** A runtime for the closed examples below: their documents hold no
    float, and [repr] of a string of plain letters is the string in single
    quotes. *)
Definition sample_runtime : PyRuntime :=
  {| pyfloat := Empty_set;
     float_bool := fun f => match f with end;
     float_repr := fun f => match f with end;
     str_repr := fun s => "'" +:+ s +:+ "'" |}.

Definition sample_value : Type := @value sample_runtime.

(** A peer that answers every request with status 200 and the body [v]. *)
Definition server_ok (v : sample_value) :
    list (@request sample_runtime) -> option (@response sample_runtime) :=
  fun _ => Some {| status_code := 200; json_body := Some v |}.

(** A peer that answers every request with status 404 and an empty object. *)
Definition server_404 :
    list (@request sample_runtime) -> option (@response sample_runtime) :=
  fun _ => Some {| status_code := 404; json_body := Some (VDict []) |}.

Definition one_page : sample_value :=
  VDict [("results", VList [VDict [("title", VStr "A")]])].

(** A caller's dictionary [{"page": 2}], allocated next to the tables. *)
Definition caller_params : loc := 3%positive.

Definition caller_state : @state sample_runtime :=
  {| heap := <[caller_params := [("page", VInt 2)]]> (heap init_state);
     sent := [] |}.

(** * Properties *)

Section Properties.
Context `{PyRuntime}.
Variable server : list request -> option response.

(** ** Dictionaries *)

Lemma dict_get_set_eq k v (d : pydict) : dict_get k (dict_set k v d) = Some v.
Proof.
  induction d as [|[k' v'] d IH]; simpl.
  - by rewrite String.eqb_refl.
  - destruct (String.eqb k k') eqn:E; simpl; rewrite ?String.eqb_refl, ?E; done.
Qed.

Lemma dict_get_set_ne k k' v (d : pydict) :
  k <> k' -> dict_get k' (dict_set k v d) = dict_get k' d.
Proof.
  intros Hne. induction d as [|[k0 v0] d IH]; simpl.
  - destruct (String.eqb k' k) eqn:E; [|done].
    apply String.eqb_eq in E. congruence.
  - destruct (String.eqb k k0) eqn:E; simpl.
    + apply String.eqb_eq in E. subst k0.
      destruct (String.eqb k' k) eqn:E'; [|done].
      apply String.eqb_eq in E'. congruence.
    + by rewrite IH.
Qed.

Lemma dict_set_set k v1 v2 (d : pydict) :
  dict_set k v2 (dict_set k v1 d) = dict_set k v2 d.
Proof.
  induction d as [|[k0 v0] d IH]; simpl.
  - by rewrite String.eqb_refl.
  - destruct (String.eqb k k0) eqn:E; simpl; rewrite ?String.eqb_refl, ?E, ?IH; done.
Qed.

(** ** The formatter on well-formed records *)

Lemma join_from_strings i sep (names : list string) :
  join_from i sep (map VStr names) = Ok (String.concat sep names).
Proof.
  revert i. induction names as [|n names IH]; intros i; simpl; [done|].
  rewrite IH. simpl. by destruct names.
Qed.

Lemma author_names_ok (people : list value) :
  forallb is_author_record people = true ->
  exists names,
    result_mapM (fun author => py_getitem author "name") people = Ok (map VStr names).
Proof.
  induction people as [|a people IH]; simpl; intros Hall.
  - by exists [].
  - apply andb_prop in Hall as [Ha Hall].
    destruct (IH Hall) as [names Hnames].
    destruct a as [| | | | |?|ad]; try discriminate.
    unfold is_author_record in Ha. simpl.
    destruct (dict_get "name" ad) as [[| | | |n| |]|]; try discriminate.
    exists (n :: names). simpl. by rewrite Hnames.
Qed.

Lemma format_work_empty (w : value) :
  py_bool w = false -> format_work w = Ok "No data found.".
Proof. intros Hw. unfold format_work. by rewrite Hw. Qed.

Lemma py_repr_within_limit :
  forall v, int_limit_ok v = true -> exists s, py_repr v = Ok s.
Proof.
  fix IH 1. intros v Hv.
  destruct v as [| [|] | n | f | s | l | d]; simpl in Hv |- *; eauto.
  - unfold py_int_str. rewrite Hv. eauto.
  - match goal with
    | |- exists s, ?t ≫= _ = Ok s => assert (Hitems : exists s, t = Ok s)
    end.
    { induction l as [|x l IHl]; [eauto|].
      simpl in Hv. apply andb_prop in Hv as [Hx Hl].
      destruct (IH x Hx) as [sx Hsx]. destruct (IHl Hl) as [sl Hsl].
      destruct l as [|y l']; [eauto|].
      rewrite Hsx, Hsl. simpl. eauto. }
    destruct Hitems as [s ->]. simpl. eauto.
  - match goal with
    | |- exists s, ?t ≫= _ = Ok s => assert (Hitems : exists s, t = Ok s)
    end.
    { induction d as [|[k x] d IHd]; [eauto|].
      simpl in Hv. apply andb_prop in Hv as [Hx Hd].
      destruct (IH x Hx) as [sx Hsx]. destruct (IHd Hd) as [sd Hsd].
      destruct d as [|[k' y] d']; [rewrite Hsx; simpl; eauto|].
      rewrite Hsx, Hsd. simpl. eauto. }
    destruct Hitems as [s ->]. simpl. eauto.
Qed.

Lemma py_format_within_limit v :
  int_limit_ok v = true -> exists s, py_format v = Ok s.
Proof.
  intros Hv. destruct v; try (by apply py_repr_within_limit).
  simpl. eauto.
Qed.

Lemma replacement_field_format (d : pydict) k :
  replacement_field (VDict d) k = py_format (default (VStr "N/A") (dict_get k d)).
Proof. reflexivity. Qed.

Lemma replacement_field_missing (d : pydict) k :
  dict_get k d = None -> replacement_field (VDict d) k = Ok "N/A".
Proof. intros Hk. by rewrite replacement_field_format, Hk. Qed.

Lemma replacement_field_null (d : pydict) k :
  dict_get k d = Some VNone -> replacement_field (VDict d) k = Ok "None".
Proof. intros Hk. by rewrite replacement_field_format, Hk. Qed.

Lemma replacement_field_within_limit (d : pydict) k :
  field_within_limit d k = true ->
  exists text, replacement_field (VDict d) k = Ok text.
Proof.
  unfold field_within_limit. intros Hk. rewrite replacement_field_format.
  destruct (dict_get k d) as [v|]; simpl; [|eauto].
  by apply py_format_within_limit.
Qed.

Lemma format_work_block (d : pydict) :
  d <> [] -> is_work_record (VDict d) = true ->
  exists title doi journal authors publication_date,
    replacement_field (VDict d) "title" = Ok title /\
    replacement_field (VDict d) "doi" = Ok doi /\
    replacement_field (VDict d) "journal" = Ok journal /\
    replacement_field (VDict d) "publication_date" = Ok publication_date /\
    format_work (VDict d) =
      Ok (work_block title doi journal authors publication_date) /\
    (dict_get "authors" d = None -> authors = "").
Proof.
  intros Hd Hw. unfold is_work_record in Hw.
  assert (Hb : py_bool (VDict d) = true) by (by destruct d).
  rewrite Hb in Hw. simpl in Hw.
  apply andb_prop in Hw as [Hw Hauthors]. apply andb_prop in Hw as [Hw Hdate].
  apply andb_prop in Hw as [Hw Hjournal]. apply andb_prop in Hw as [Htitle Hdoi].
  destruct (replacement_field_within_limit d "title" Htitle) as [title Ht].
  destruct (replacement_field_within_limit d "doi" Hdoi) as [doi Hdo].
  destruct (replacement_field_within_limit d "journal" Hjournal) as [journal Hj].
  destruct (replacement_field_within_limit d "publication_date" Hdate) as [date Hp].
  unfold format_work. rewrite Hb, Ht, Hdo, Hj. simpl.
  destruct (dict_get "authors" d) as [[| | | | |people|]|] eqn:Ha; try discriminate.
  - destruct (author_names_ok people Hauthors) as [names Hnames].
    simpl. rewrite Hnames. simpl.
    unfold py_join. rewrite join_from_strings. simpl. rewrite Hp. simpl.
    exists title, doi, journal, (String.concat ", " names), date.
    repeat split; try done.
  - simpl. rewrite Hp. simpl. exists title, doi, journal, "", date.
    repeat split; done.
Qed.

Lemma format_work_ok (w : value) :
  is_work_record w = true -> exists s, format_work w = Ok s.
Proof.
  intros Hw. destruct (py_bool w) eqn:Hb.
  - unfold is_work_record in Hw. rewrite Hb in Hw. simpl in Hw.
    destruct w as [| | | | | |d]; try discriminate.
    assert (Hd : d <> []) by (by destruct d).
    assert (Hw' : is_work_record (VDict d) = true).
    { unfold is_work_record. rewrite Hb. exact Hw. }
    destruct (format_work_block d Hd Hw')
      as (t & o & j & a & p & _ & _ & _ & _ & Hfmt & _). eauto.
  - rewrite format_work_empty by done. eauto.
Qed.

Lemma format_works_ok (works : list value) :
  forallb is_work_record works = true ->
  exists blocks, result_mapM format_work works = Ok blocks.
Proof.
  induction works as [|w works IH]; simpl; intros Hall.
  - by exists [].
  - apply andb_prop in Hall as [Hw Hall].
    destruct (format_work_ok w Hw) as [s Hs].
    destruct (IH Hall) as [blocks Hblocks].
    exists (s :: blocks). by rewrite Hs, Hblocks.
Qed.

(** C8. A response whose results hold exactly one empty record renders as
    the empty-record text followed by the count line:
    [{results: [{}]}] gives "No data found.\nNumber of works found: 1". *)
Theorem format_works_response_one_empty_record :
  format_works_response (VDict [("results", VList [VDict []])]) =
    Ok ("No data found." +:+ nl +:+ "Number of works found: 1").
Proof. reflexivity. Qed.

(** C9. A response whose results array is empty renders as exactly
    "No works found.": no block and no count line. *)
Theorem format_works_response_no_results (d : pydict) :
  dict_get "results" d = Some (VList []) ->
  format_works_response (VDict d) = Ok "No works found.".
Proof. intros Hd. unfold format_works_response. simpl. by rewrite Hd. Qed.

(** C3 (amended). On every search response (an object whose results, when
    present, are an array of work records, each author record holding a
    string name and no title, doi, journal or publication_date holding an
    integer beyond the conversion limit of 4300 digits) the formatter
    returns a string and raises nothing; when the
    results are empty or absent that string is "No works found.", otherwise
    it is the blocks of the records, each of them rendered without error,
    joined by the separator and followed by the count line. *)
Theorem format_works_response_never_raises (data : value) :
  is_search_response data = true ->
  exists blocks,
    Forall2 (fun w b => format_work w = Ok b) (results_of data) blocks /\
    format_works_response data =
      Ok (match results_of data with
          | [] => "No works found."
          | _ => String.concat (nl +:+ "---" +:+ nl) blocks +:+ nl +:+
                 "Number of works found: " +:+
                 int_str (Z.of_nat (length (results_of data)))
          end).
Proof.
  intros Hwf. destruct data as [| | | | | |d]; try discriminate.
  unfold is_search_response in Hwf. unfold format_works_response, results_of. simpl.
  destruct (dict_get "results" d) as [[| | | | |works|]|] eqn:Hr; try discriminate.
  - destruct (format_works_ok works Hwf) as [blocks Hblocks].
    exists blocks. split.
    + clear Hr Hwf. revert blocks Hblocks.
      induction works as [|w works IH]; simpl; intros blocks Hblocks.
      * injection Hblocks as <-. constructor.
      * destruct (format_work w) as [b|] eqn:Hb; simpl in Hblocks; [|discriminate].
        destruct (result_mapM format_work works) as [bs|] eqn:Hbs;
          simpl in Hblocks; [|discriminate].
        injection Hblocks as <-. constructor; [done | by apply IH].
    + simpl. rewrite Hblocks. simpl. by destruct works.
  - exists []. split; [constructor | done].
Qed.

(** C5 (amended). A non-empty work record, none of whose title, doi,
    journal and publication_date holds an integer beyond the conversion
    limit, renders as the fixed block in which a missing title, doi, journal
    or publication_date is replaced by the placeholder N/A, and a missing
    authors key leaves the Authors line empty. *)
Theorem format_work_missing_fields (d : pydict) :
  d <> [] -> is_work_record (VDict d) = true ->
  exists title doi journal authors publication_date,
    format_work (VDict d) =
      Ok (work_block title doi journal authors publication_date) /\
    (dict_get "title" d = None -> title = "N/A") /\
    (dict_get "doi" d = None -> doi = "N/A") /\
    (dict_get "journal" d = None -> journal = "N/A") /\
    (dict_get "publication_date" d = None -> publication_date = "N/A") /\
    (dict_get "authors" d = None -> authors = "").
Proof.
  intros Hd Hw.
  destruct (format_work_block d Hd Hw)
    as (title & doi & journal & authors & date & Ht & Hdo & Hj & Hp & Hfmt & Hauth).
  exists title, doi, journal, authors, date. split; [exact Hfmt|].
  repeat split; try exact Hauth; intros Hmiss;
    rewrite (replacement_field_missing d _ Hmiss) in *; congruence.
Qed.

(** ** The requester *)

Ltac run_search :=
  unfold openalex_search, fetch_openalex_data, client_get, raise_for_status,
    response_json, table_getitem, dict_setitem, raise, lift,
    mbind, M_mbind, mret, M_ret; simpl.

Lemma ENDPOINTS_unknown (e : string) :
  e ∉ ["works"; "authors"; "venues"; "institutions"; "concepts"; "ids"] ->
  ENDPOINTS !! e = None.
Proof.
  intros Hnot. unfold ENDPOINTS.
  repeat (rewrite lookup_insert_ne; [|intros <-; apply Hnot; set_solver]).
  apply lookup_empty.
Qed.

Lemma selected_params_resolve e params l :
  selected_params e params = Some l ->
  (match params with
   | None => table_getitem PARAMS e
   | Some l0 => mret l0
   end : M loc) = mret l.
Proof.
  unfold selected_params, table_getitem. destruct params as [l0|].
  - by intros [= ->].
  - by intros ->.
Qed.

Lemma openalex_search_invalid q e params st :
  ENDPOINTS !! e = None ->
  openalex_search server q e params st =
    (Raise (ValueError ("Invalid endpoint: " +:+ e)), st).
Proof.
  intros He. unfold openalex_search. rewrite He.
  rewrite bool_decide_false by (by intros [? ?]). done.
Qed.

Lemma openalex_search_missing_defaults q e path st :
  ENDPOINTS !! e = Some path -> PARAMS !! e = None ->
  openalex_search server q e None st = (Raise (KeyError e), st).
Proof.
  intros He Hp. unfold openalex_search. rewrite He.
  rewrite bool_decide_true by eauto.
  run_search. by rewrite Hp.
Qed.

Lemma openalex_search_requested q e params st path l :
  ENDPOINTS !! e = Some path -> selected_params e params = Some l ->
  snd (openalex_search server q e params st) = requested q path l st.
Proof.
  intros He Hl. unfold openalex_search. rewrite He.
  rewrite bool_decide_true by eauto. simpl.
  unfold mbind at 1, M_mbind at 1.
  rewrite (selected_params_resolve _ _ _ Hl).
  run_search. rewrite He. simpl. unfold requested. simpl.
  destruct (server _) as [r|]; [|done].
  destruct ((200 <=? status_code r) && (status_code r <=? 299)); [|done].
  destruct (json_body r) as [data|]; [|done].
  destruct (py_bool data); simpl; [|done].
  destruct (py_contains "results" data) as [[]|]; done.
Qed.

Lemma openalex_search_answer q e params st path l r data :
  ENDPOINTS !! e = Some path -> selected_params e params = Some l ->
  server (sent (requested q path l st)) = Some r ->
  200 <= status_code r <= 299 ->
  json_body r = Some data ->
  fst (openalex_search server q e params st) =
    if negb (py_bool data)
    then Raise (ValueError ("No data found for query: " +:+ q))
    else match py_contains "results" data with
         | Ok true => Ok data
         | Ok false => Raise (ValueError ("No data found for query: " +:+ q))
         | Raise err => Raise err
         end.
Proof.
  intros He Hl Hr Hs Hj. unfold openalex_search. rewrite He.
  rewrite bool_decide_true by eauto. simpl.
  unfold mbind at 1, M_mbind at 1.
  rewrite (selected_params_resolve _ _ _ Hl).
  run_search. rewrite He. simpl. unfold requested in Hr. simpl in Hr.
  rewrite Hr. simpl.
  replace ((200 <=? status_code r) && (status_code r <=? 299)) with true
    by (symmetry; apply andb_true_intro; split; apply Z.leb_le; lia).
  rewrite Hj. simpl.
  destruct (py_bool data); simpl; [|done].
  destruct (py_contains "results" data) as [[]|]; done.
Qed.

Lemma requested_store q path l d st :
  heap st !! l = Some d ->
  requested q path l st =
    {| heap := <[l := dict_set "search" (VStr q) d]> (heap st);
       sent := sent st ++ [search_request path (dict_set "search" (VStr q) d)] |}.
Proof.
  intros Hd. unfold requested, search_request. simpl.
  rewrite lookup_alter_eq, Hd. simpl. f_equal.
  apply map_eq. intros l'. destruct (decide (l = l')) as [<-|Hne].
  - by rewrite lookup_alter_eq, lookup_insert_eq, Hd.
  - by rewrite lookup_alter_ne, lookup_insert_ne.
Qed.

Lemma PARAMS_inj e e' l :
  PARAMS !! e = Some l -> PARAMS !! e' = Some l -> e = e'.
Proof.
  unfold PARAMS. intros He He'.
  apply lookup_insert_Some in He as [[<- <-]|[? He]];
    apply lookup_insert_Some in He' as [[<- He']|[? He']]; try done;
    try (apply lookup_insert_Some in He as [[<- <-]|[? He]]);
    try (apply lookup_insert_Some in He' as [[<- He']|[? He']]);
    try done.
Qed.

(** C1. For a valid endpoint with no entry in [PARAMS] (venues,
    institutions, concepts, ids) and no caller mapping, the subscript
    [PARAMS[endpoint]] raises [KeyError]: the call stops there, before the
    [search] key is set and before any request is made. *)
Theorem openalex_search_no_default_entry q e path st :
  ENDPOINTS !! e = Some path -> PARAMS !! e = None ->
  openalex_search server q e None st = (Raise (KeyError e), st).
Proof. apply openalex_search_missing_defaults. Qed.

(** C2 (amended). A call without a caller mapping writes [search] into the
    [PARAMS] entry of its endpoint, in place: after it that entry holds the
    query under [search], its other keys and all other dictionaries are as
    before, and a second such call for the same endpoint sends the same
    default keys and values, with [search] bound to its own query. *)
Theorem openalex_search_default_params_shared q1 q2 e path l d st :
  ENDPOINTS !! e = Some path -> PARAMS !! e = Some l -> heap st !! l = Some d ->
  let st1 := snd (openalex_search server q1 e None st) in
  let st2 := snd (openalex_search server q2 e None st1) in
  heap st1 = <[l := dict_set "search" (VStr q1) d]> (heap st) /\
  PARAMS_value st1 !! e = Some (dict_set "search" (VStr q1) d) /\
  (forall k, k <> "search" ->
     dict_get k (dict_set "search" (VStr q1) d) = dict_get k d) /\
  (forall e', e' <> e -> PARAMS_value st1 !! e' = PARAMS_value st !! e') /\
  sent st1 = (sent st ++ [search_request path (dict_set "search" (VStr q1) d)])%list /\
  sent st2 = (sent st1 ++ [search_request path (dict_set "search" (VStr q2) d)])%list.
Proof.
  intros He Hl Hd st1 st2.
  assert (Hst1 : st1 = requested q1 path l st)
    by (by apply openalex_search_requested).
  rewrite (requested_store _ _ _ _ _ Hd) in Hst1.
  assert (Hd1 : heap st1 !! l = Some (dict_set "search" (VStr q1) d))
    by (rewrite Hst1; simpl; apply lookup_insert_eq).
  assert (Hst2 : st2 = requested q2 path l st1)
    by (by apply openalex_search_requested).
  rewrite (requested_store _ _ _ _ _ Hd1), dict_set_set in Hst2.
  repeat split.
  - by rewrite Hst1.
  - unfold PARAMS_value. rewrite lookup_omap, Hl. exact Hd1.
  - intros k Hk. by apply dict_get_set_ne.
  - intros e' Hne. unfold PARAMS_value. rewrite !lookup_omap.
    destruct (PARAMS !! e') as [l'|] eqn:Hl'; [|done]. simpl.
    rewrite Hst1. simpl. apply lookup_insert_ne.
    intros <-. apply Hne. by apply (PARAMS_inj e' e l).
  - by rewrite Hst1.
  - by rewrite Hst2.
Qed.

(** C4 (amended). For a valid endpoint, the mapping sent with the request
    is the caller's mapping when one is supplied, otherwise the [PARAMS]
    entry of the endpoint, in either case with [search] bound to the query,
    overwriting a [search] key already there and leaving every other key as
    it was; the two are not merged. *)
Theorem openalex_search_sent_parameters q e params path l d st :
  ENDPOINTS !! e = Some path -> selected_params e params = Some l ->
  heap st !! l = Some d ->
  sent (snd (openalex_search server q e params st)) =
    (sent st ++ [search_request path (dict_set "search" (VStr q) d)])%list /\
  dict_get "search" (dict_set "search" (VStr q) d) = Some (VStr q) /\
  (forall k, k <> "search" ->
     dict_get k (dict_set "search" (VStr q) d) = dict_get k d).
Proof.
  intros He Hl Hd.
  rewrite (openalex_search_requested _ _ _ _ _ _ He Hl).
  rewrite (requested_store _ _ _ _ _ Hd). simpl.
  split; [done|]. split; [apply dict_get_set_eq|].
  intros k Hk. by apply dict_get_set_ne.
Qed.

(** C6. For an endpoint outside works, authors, venues, institutions,
    concepts and ids, the call raises [ValueError] "Invalid endpoint: ..."
    and leaves the state as it was: no request is added to the trace and
    no dictionary is touched. *)
Theorem openalex_search_invalid_endpoint q e params st :
  e ∉ ["works"; "authors"; "venues"; "institutions"; "concepts"; "ids"] ->
  openalex_search server q e params st =
    (Raise (ValueError ("Invalid endpoint: " +:+ e)), st) /\
  sent (snd (openalex_search server q e params st)) = sent st.
Proof.
  intros Hnot.
  rewrite (openalex_search_invalid _ _ _ _ (ENDPOINTS_unknown _ Hnot)). done.
Qed.

(** C7 (amended). When the call has issued its request and the response,
    of a 2xx status, parses to a JSON value that is empty, or to an object
    without a [results] key, or to an array or a string in which the
    membership test finds no [results], the call raises [ValueError] with
    the message "No data found for query: " followed by the query; it
    returns no value. *)
Theorem openalex_search_empty_result q e params st r data :
  let out := openalex_search server q e params st in
  sent (snd out) <> sent st ->
  server (sent (snd out)) = Some r ->
  200 <= status_code r <= 299 ->
  json_body r = Some data ->
  py_bool data = false \/
  (exists d, data = VDict d /\ dict_get "results" d = None) \/
  py_contains "results" data = Ok false ->
  fst out = Raise (ValueError ("No data found for query: " +:+ q)).
Proof.
  intros out Hsent Hr Hs Hj Hdata. subst out.
  destruct (ENDPOINTS !! e) as [path|] eqn:He.
  2: { rewrite openalex_search_invalid in Hsent by done. done. }
  destruct (selected_params e params) as [l|] eqn:Hl.
  2: { destruct params as [l0|]; [discriminate|]. simpl in Hl.
       rewrite (openalex_search_missing_defaults _ _ _ _ He Hl) in Hsent. done. }
  rewrite (openalex_search_requested _ _ _ _ _ _ He Hl) in Hr.
  rewrite (openalex_search_answer _ _ _ _ _ _ _ _ He Hl Hr Hs Hj).
  destruct Hdata as [Hb|[(d & -> & Hd)|Hc]].
  - by rewrite Hb.
  - destruct (py_bool (VDict d)); simpl; [|done].
    rewrite bool_decide_false; [done|]. rewrite Hd. by intros [? ?].
  - rewrite Hc. by destruct (py_bool data).
Qed.

(** Outside the cases of the previous statement: on a non-empty body on
    which the membership test is not defined (a non-zero number, [true])
    the error of the test itself is what the call raises. *)
Remark openalex_search_body_without_membership q e params st path l r data err :
  ENDPOINTS !! e = Some path -> selected_params e params = Some l ->
  server (sent (requested q path l st)) = Some r ->
  200 <= status_code r <= 299 ->
  json_body r = Some data ->
  py_bool data = true -> py_contains "results" data = Raise err ->
  fst (openalex_search server q e params st) = Raise err.
Proof.
  intros He Hl Hr Hs Hj Hb Hc.
  rewrite (openalex_search_answer _ _ _ _ _ _ _ _ He Hl Hr Hs Hj).
  by rewrite Hb, Hc.
Qed.

(** C10 (amended). With a valid endpoint, a call given the caller's mapping
    works on that very object: whatever the outcome of the request,
    afterwards the caller's mapping holds [search] bound to the query, every
    other key of it is as before, and no other dictionary of the store has
    changed. *)
Theorem openalex_search_mutates_caller_params q e path l d st :
  ENDPOINTS !! e = Some path -> heap st !! l = Some d ->
  let st' := snd (openalex_search server q e (Some l) st) in
  heap st' = <[l := dict_set "search" (VStr q) d]> (heap st) /\
  exists d',
    heap st' !! l = Some d' /\
    dict_get "search" d' = Some (VStr q) /\
    (forall k, k <> "search" -> dict_get k d' = dict_get k d).
Proof.
  intros He Hd st'. subst st'.
  rewrite (openalex_search_requested _ _ (Some l) _ path l He eq_refl).
  rewrite (requested_store _ _ _ _ _ Hd). simpl.
  split; [done|]. exists (dict_set "search" (VStr q) d).
  split; [apply lookup_insert_eq|]. split; [apply dict_get_set_eq|].
  intros k Hk. by apply dict_get_set_ne.
Qed.

(** ** Further properties of the requester *)

Lemma openalex_search_cases q e params st :
  (ENDPOINTS !! e = None /\
   openalex_search server q e params st =
     (Raise (ValueError ("Invalid endpoint: " +:+ e)), st)) \/
  (exists path, ENDPOINTS !! e = Some path /\ selected_params e params = None /\
     openalex_search server q e params st = (Raise (KeyError e), st)) \/
  (exists path l, ENDPOINTS !! e = Some path /\ selected_params e params = Some l /\
     snd (openalex_search server q e params st) = requested q path l st).
Proof.
  destruct (ENDPOINTS !! e) as [path|] eqn:He.
  2: { left. split; [done|]. by apply openalex_search_invalid. }
  right. destruct (selected_params e params) as [l|] eqn:Hl.
  - right. exists path, l. repeat split. by apply openalex_search_requested.
  - left. exists path. repeat split.
    destruct params as [l0|]; [discriminate|]. simpl in Hl.
    by apply openalex_search_missing_defaults with path.
Qed.

Lemma openalex_search_issued q e params st :
  sent (snd (openalex_search server q e params st)) <> sent st ->
  exists path l, ENDPOINTS !! e = Some path /\ selected_params e params = Some l /\
    snd (openalex_search server q e params st) = requested q path l st.
Proof.
  intros Hsent.
  destruct (openalex_search_cases q e params st)
    as [[_ Heq]|[(path & _ & _ & Heq)|Hreq]]; [| |exact Hreq];
    rewrite Heq in Hsent; done.
Qed.

Lemma ENDPOINTS_path e path : ENDPOINTS !! e = Some path -> path = "/" +:+ e.
Proof.
  unfold ENDPOINTS. intros He.
  repeat (apply lookup_insert_Some in He as [[<- <-]|[_ He]]; [reflexivity|]).
  by rewrite lookup_empty in He.
Qed.

(** The outcome of a call that has issued its request, read off the
    response. *)
Lemma openalex_search_result q e params st path l :
  ENDPOINTS !! e = Some path -> selected_params e params = Some l ->
  fst (openalex_search server q e params st) =
    match server (sent (requested q path l st)) with
    | None => Raise RequestError
    | Some r =>
        if (200 <=? status_code r) && (status_code r <=? 299)
        then match json_body r with
             | None => Raise JSONDecodeError
             | Some data =>
                 if negb (py_bool data)
                 then Raise (ValueError ("No data found for query: " +:+ q))
                 else match py_contains "results" data with
                      | Ok true => Ok data
                      | Ok false => Raise (ValueError ("No data found for query: " +:+ q))
                      | Raise err => Raise err
                      end
             end
        else Raise (HTTPStatusError (status_code r))
    end.
Proof.
  intros He Hl. unfold openalex_search. rewrite He.
  rewrite bool_decide_true by eauto. simpl.
  unfold mbind at 1, M_mbind at 1.
  rewrite (selected_params_resolve _ _ _ Hl).
  run_search. rewrite He. simpl. unfold requested. simpl.
  destruct (server _) as [r|]; [|done].
  destruct ((200 <=? status_code r) && (status_code r <=? 299)); [|done].
  destruct (json_body r) as [data|]; [|done].
  destruct (py_bool data); simpl; [|done].
  destruct (py_contains "results" data) as [[]|]; done.
Qed.

Lemma status_2xx (r : response) :
  200 <= status_code r <= 299 <->
  (200 <=? status_code r) && (status_code r <=? 299) = true.
Proof. rewrite andb_true_iff, !Z.leb_le. done. Qed.

Lemma fetch_openalex_data_state endpoint params st :
  snd (fetch_openalex_data server endpoint params st) =
    {| heap := heap st;
       sent := sent st ++
         [{| req_url := "https://api.openalex.org/" +:+ endpoint;
             req_headers := [("User-Agent", "openalex-search-app/1.0");
                             ("Mailto", "openalextest@gmail.com")];
             req_params := l ← params; heap st !! l |}] |}.
Proof.
  run_search. destruct (server _) as [r|]; [|done].
  destruct ((200 <=? status_code r) && (status_code r <=? 299)); [|done].
  by destruct (json_body r).
Qed.

(** X1. [fetch_openalex_data] issues exactly one request whatever its
    outcome: the URL is the base, a slash and the endpoint it is given, the
    headers are the two fixed ones, the query parameters are the contents of
    the dictionary it is given, and no dictionary is changed. *)
Theorem fetch_openalex_data_one_request endpoint params st :
  snd (fetch_openalex_data server endpoint params st) =
    {| heap := heap st;
       sent := sent st ++
         [{| req_url := "https://api.openalex.org/" +:+ endpoint;
             req_headers := [("User-Agent", "openalex-search-app/1.0");
                             ("Mailto", "openalextest@gmail.com")];
             req_params := l ← params; heap st !! l |}] |}.
Proof. apply fetch_openalex_data_state. Qed.

Lemma fetch_openalex_data_result endpoint params st :
  fst (fetch_openalex_data server endpoint params st) =
    match server (sent (snd (fetch_openalex_data server endpoint params st))) with
    | None => Raise RequestError
    | Some r =>
        if (200 <=? status_code r) && (status_code r <=? 299)
        then match json_body r with
             | Some v => Ok v
             | None => Raise JSONDecodeError
             end
        else Raise (HTTPStatusError (status_code r))
    end.
Proof.
  run_search. destruct (server _) as [r|] eqn:Hr; simpl; [|by rewrite Hr].
  destruct ((200 <=? status_code r) && (status_code r <=? 299)) eqn:Hs; simpl.
  - destruct (json_body r) as [v|] eqn:Hj; simpl; by rewrite Hr, Hs, Hj.
  - by rewrite Hr, Hs.
Qed.

(** X2. [fetch_openalex_data] returns a value exactly when the peer answers
    with a status in 200..299 and a body that parses, and the value is that
    parsed body. *)
Theorem fetch_openalex_data_ok_iff endpoint params st v :
  fst (fetch_openalex_data server endpoint params st) = Ok v <->
  exists r,
    server (sent (snd (fetch_openalex_data server endpoint params st))) = Some r /\
    200 <= status_code r <= 299 /\ json_body r = Some v.
Proof.
  rewrite fetch_openalex_data_result.
  destruct (server _) as [r|].
  2: { split; [discriminate|]. by intros (? & ? & _). }
  destruct ((200 <=? status_code r) && (status_code r <=? 299)) eqn:Hs.
  - apply status_2xx in Hs. destruct (json_body r) as [data|] eqn:Hj.
    + split.
      * intros [= ->]. by exists r.
      * intros (r' & [= <-] & _ & Hj'). congruence.
    + split; [discriminate|]. intros (r' & [= <-] & _ & Hj'). congruence.
  - split; [discriminate|]. intros (r' & [= <-] & Hs' & _).
    apply status_2xx in Hs'. congruence.
Qed.

(** X3. A response whose status is outside 200..299 makes
    [fetch_openalex_data] raise the HTTP status error, whether or not its
    body would parse. *)
Theorem fetch_openalex_data_status_error endpoint params st r :
  server (sent (snd (fetch_openalex_data server endpoint params st))) = Some r ->
  ~ (200 <= status_code r <= 299) ->
  fst (fetch_openalex_data server endpoint params st) =
    Raise (HTTPStatusError (status_code r)).
Proof.
  intros Hr Hs. rewrite fetch_openalex_data_result, Hr.
  destruct ((200 <=? status_code r) && (status_code r <=? 299)) eqn:Hb; [|done].
  apply status_2xx in Hb. done.
Qed.

Lemma dict_get_nonempty k (d : pydict) : is_Some (dict_get k d) -> py_bool (VDict d) = true.
Proof. destruct d; [by intros [? ?]|done]. Qed.

(** X4. The check on the response looks at the presence of the [results]
    key only: when a 2xx response parses to an object that has the key,
    whatever is stored under it, the call returns that object unchanged. *)
Theorem openalex_search_returns_body q e params st r d :
  let out := openalex_search server q e params st in
  sent (snd out) <> sent st ->
  server (sent (snd out)) = Some r ->
  200 <= status_code r <= 299 ->
  json_body r = Some (VDict d) ->
  is_Some (dict_get "results" d) ->
  fst out = Ok (VDict d).
Proof.
  intros out Hsent Hr Hs Hj Hres. subst out.
  destruct (openalex_search_issued _ _ _ _ Hsent) as (path & l & He & Hl & Hst).
  rewrite Hst in Hr. rewrite (openalex_search_result _ _ _ _ _ _ He Hl), Hr.
  apply status_2xx in Hs. rewrite Hs, Hj.
  rewrite (dict_get_nonempty _ _ Hres). simpl.
  by rewrite bool_decide_true.
Qed.

(** X5. Whatever the call returns has passed every check: the endpoint is
    known, exactly one request was issued, the response had a 2xx status,
    the returned value is its parsed body, it is not empty and the
    membership test finds [results] in it. *)
Theorem openalex_search_ok_inv q e params st data :
  let out := openalex_search server q e params st in
  fst out = Ok data ->
  is_Some (ENDPOINTS !! e) /\
  (exists req, sent (snd out) = (sent st ++ [req])%list) /\
  (exists r, server (sent (snd out)) = Some r /\
             200 <= status_code r <= 299 /\ json_body r = Some data) /\
  py_bool data = true /\
  py_contains "results" data = Ok true.
Proof.
  intros out Hok. subst out.
  destruct (openalex_search_cases q e params st)
    as [[_ Heq]|[(path & _ & _ & Heq)|(path & l & He & Hl & Hst)]];
    try (rewrite Heq in Hok; discriminate).
  rewrite (openalex_search_result _ _ _ _ _ _ He Hl) in Hok.
  rewrite Hst. split; [by rewrite He|]. split; [by eexists|].
  destruct (server _) as [r|]; [|discriminate].
  destruct ((200 <=? status_code r) && (status_code r <=? 299)) eqn:Hs; [|discriminate].
  apply status_2xx in Hs.
  destruct (json_body r) as [body|] eqn:Hj; [|discriminate].
  destruct (py_bool body) eqn:Hb; simpl in Hok; [|discriminate].
  destruct (py_contains "results" body) as [[]|] eqn:Hc; try discriminate.
  injection Hok as <-. split; [by exists r|]. done.
Qed.

Lemma openalex_search_sent q e params st :
  sent (snd (openalex_search server q e params st)) = sent st \/
  exists l, selected_params e params = Some l /\ is_Some (ENDPOINTS !! e) /\
    sent (snd (openalex_search server q e params st)) =
      (sent st ++
       [{| req_url := "https://api.openalex.org//" +:+ e;
           req_headers := [("User-Agent", "openalex-search-app/1.0");
                           ("Mailto", "openalextest@gmail.com")];
           req_params := dict_set "search" (VStr q) <$> heap st !! l |}])%list.
Proof.
  destruct (openalex_search_cases q e params st)
    as [[_ Heq]|[(path & _ & _ & Heq)|(path & l & He & Hl & Hst)]];
    try (left; by rewrite Heq).
  right. exists l. split; [done|]. split; [by rewrite He|].
  rewrite Hst. unfold requested. simpl. rewrite lookup_alter_eq.
  by rewrite (ENDPOINTS_path _ _ He).
Qed.

(** X6. A call issues at most one request. When it issues one, the endpoint
    is known, the URL is the base followed by two slashes and the endpoint
    name (the table's paths start with a slash and the URL adds another),
    the headers are the two fixed ones, and the query parameters are the
    selected dictionary with [search] set. *)
Theorem openalex_search_request_shape q e params st :
  let out := openalex_search server q e params st in
  sent (snd out) = sent st \/
  exists l, selected_params e params = Some l /\ is_Some (ENDPOINTS !! e) /\
    sent (snd out) =
      (sent st ++
       [{| req_url := "https://api.openalex.org//" +:+ e;
           req_headers := [("User-Agent", "openalex-search-app/1.0");
                           ("Mailto", "openalextest@gmail.com")];
           req_params := dict_set "search" (VStr q) <$> heap st !! l |}])%list.
Proof. apply openalex_search_sent. Qed.

(** X7. The call handles no error of [fetch_openalex_data]: whatever the
    fetch raises on the selected dictionary (a transport failure, an HTTP
    status error, a body that does not parse) is what the call raises. *)
Theorem openalex_search_propagates_fetch_error q e params st path l err :
  ENDPOINTS !! e = Some path -> selected_params e params = Some l ->
  fst (fetch_openalex_data server path (Some l)
         {| heap := alter (dict_set "search" (VStr q)) l (heap st);
            sent := sent st |}) = Raise err ->
  fst (openalex_search server q e params st) = Raise err.
Proof.
  intros He Hl Hfetch.
  rewrite fetch_openalex_data_result, fetch_openalex_data_state in Hfetch.
  rewrite (openalex_search_result _ _ _ _ _ _ He Hl).
  change (sent (requested q path l st)) with
    (sent {| heap := alter (dict_set "search" (VStr q)) l (heap st);
             sent := sent st ++
               [{| req_url := "https://api.openalex.org/" +:+ path;
                   req_headers := [("User-Agent", "openalex-search-app/1.0");
                                   ("Mailto", "openalextest@gmail.com")];
                   req_params := l0 ← Some l;
                     alter (dict_set "search" (VStr q)) l (heap st) !! l0 |}] |}).
  simpl in *. destruct (server _) as [r|]; [|done].
  destruct ((200 <=? status_code r) && (status_code r <=? 299)); [|done].
  destruct (json_body r); [discriminate|done].
Qed.

(** X8. Repeating a call with the same arguments changes no dictionary
    further: the store after the second call is the store after the
    first. *)
Theorem openalex_search_repeat_same_query q e params st :
  let st1 := snd (openalex_search server q e params st) in
  heap (snd (openalex_search server q e params st1)) = heap st1.
Proof.
  intros st1. subst st1.
  destruct (openalex_search_cases q e params st)
    as [[He Heq]|[(path & He & Hl & Heq)|(path & l & He & Hl & Hst)]].
  - rewrite Heq. simpl. by rewrite openalex_search_invalid.
  - rewrite Heq. simpl. by rewrite Heq.
  - rewrite (openalex_search_requested q e params
               (snd (openalex_search server q e params st)) path l He Hl).
    rewrite Hst. unfold requested. simpl.
    rewrite alter_alter_eq. apply alter_ext. intros d _. simpl.
    apply dict_set_set.
Qed.

Lemma openalex_search_heap q e params st :
  heap (snd (openalex_search server q e params st)) = heap st \/
  exists l, heap (snd (openalex_search server q e params st)) =
              alter (dict_set "search" (VStr q)) l (heap st).
Proof.
  destruct (openalex_search_cases q e params st)
    as [[_ Heq]|[(path & _ & _ & Heq)|(path & l & He & Hl & Hst)]];
    try (left; by rewrite Heq).
  right. exists l. by rewrite Hst.
Qed.

Lemma defaults_preserved_step q e params st :
  defaults_preserved st ->
  defaults_preserved (snd (openalex_search server q e params st)).
Proof.
  intros Hinv e' l' Hl'. destruct (Hinv e' l' Hl') as (d & d0 & Hd & Hd0 & Hk).
  destruct (openalex_search_heap q e params st) as [->|[l ->]].
  - by exists d, d0.
  - destruct (decide (l = l')) as [<-|Hne].
    + exists (dict_set "search" (VStr q) d), d0.
      rewrite lookup_alter_eq, Hd. repeat split; [done|].
      intros k Hne. rewrite dict_get_set_ne by done. by apply Hk.
    + exists d, d0. by rewrite lookup_alter_ne.
Qed.

Lemma defaults_preserved_init : defaults_preserved init_state.
Proof.
  intros e l Hl. unfold PARAMS in Hl.
  apply lookup_insert_Some in Hl as [[_ <-]|[_ Hl]];
    [|apply lookup_insert_Some in Hl as [[_ <-]|[_ Hl]];
      [|by rewrite lookup_empty in Hl]];
    eexists _, _; repeat split; reflexivity.
Qed.

(** X9. Whatever calls the host makes, in whatever order and with whatever
    arguments, each dictionary of [PARAMS] keeps under every key other than
    [search] the value it had when the module was loaded. *)
Theorem defaults_preserved_run_calls calls st :
  defaults_preserved st -> defaults_preserved (run_calls server calls st).
Proof.
  revert st. induction calls as [|c calls IH]; intros st Hinv; simpl; [done|].
  apply IH. by apply defaults_preserved_step.
Qed.

(** X10. However many calls the host makes, the requests they add to the
    trace are at most one per call, in order after what was sent before, and
    each of them goes to the URL of one of the known endpoints: nothing is
    retried and nothing is sent elsewhere. *)
Theorem run_calls_requests calls st :
  exists new,
    sent (run_calls server calls st) = (sent st ++ new)%list /\
    (length new <= length calls)%nat /\
    Forall (fun req => exists e, is_Some (ENDPOINTS !! e) /\
                         req_url req = "https://api.openalex.org//" +:+ e) new.
Proof.
  revert st. induction calls as [|c calls IH]; intros st; simpl.
  - exists []. rewrite app_nil_r. repeat split; [simpl; lia|constructor].
  - destruct (IH (snd (openalex_search server (call_query c) (call_endpoint c)
                         (call_params c) st))) as (new & Hsent & Hlen & Hall).
    destruct (openalex_search_sent (call_query c) (call_endpoint c) (call_params c) st)
      as [Heq|(l & _ & He & Heq)]; rewrite Heq in Hsent.
    + exists new. repeat split; [done|lia|done].
    + eexists (_ :: new). rewrite <- app_assoc in Hsent. simpl in Hsent.
      split; [exact Hsent|]. split; [simpl; lia|].
      constructor; [|done]. by exists (call_endpoint c).
Qed.

(** X11. A call given a caller's dictionary that is none of the [PARAMS]
    dictionaries leaves the value of [PARAMS] as it was, whatever the
    endpoint and the outcome. *)
Theorem openalex_search_caller_params_frame q e l st :
  (forall e', PARAMS !! e' <> Some l) ->
  PARAMS_value (snd (openalex_search server q e (Some l) st)) = PARAMS_value st.
Proof.
  intros Hfresh.
  destruct (openalex_search_cases q e (Some l) st)
    as [[_ Heq]|[(path & _ & Hsel & _)|(path & l0 & He & Hl & Hst)]];
    [by rewrite Heq|discriminate|].
  injection Hl as <-. rewrite Hst. unfold PARAMS_value, requested. simpl.
  apply map_eq. intros e'. rewrite !lookup_omap.
  destruct (PARAMS !! e') as [l'|] eqn:Hl'; [|done]. simpl.
  apply lookup_alter_ne. intros <-. by apply (Hfresh e').
Qed.

(** ** Further properties of the formatter *)

Lemma result_mapM_first_error {A B} (f : A -> result B) pre w post err :
  Forall (fun x => exists b, f x = Ok b) pre -> f w = Raise err ->
  result_mapM f (pre ++ w :: post) = Raise err.
Proof.
  intros Hpre Hw. induction Hpre as [|x pre [b Hb] _ IH]; simpl.
  - by rewrite Hw.
  - by rewrite Hb, IH.
Qed.

Lemma author_names_values (people names : list value) :
  Forall2 (fun a v => exists ad, a = VDict ad /\ dict_get "name" ad = Some v)
          people names ->
  result_mapM (fun author => py_getitem author "name") people = Ok names.
Proof.
  induction 1 as [|a v people names (ad & -> & Hv) _ IH]; simpl; [done|].
  by rewrite Hv, IH.
Qed.

Lemma join_from_not_string i sep (pre : list string) x post :
  (forall s, x <> VStr s) ->
  join_from i sep (map VStr pre ++ x :: post) =
    Raise (TypeError
             ("sequence item " +:+ int_str (i + Z.of_nat (length pre)) +:+
              ": expected str instance, " +:+ type_name x +:+ " found")).
Proof.
  intros Hx. revert i. induction pre as [|n pre IH]; intros i.
  - simpl. rewrite Z.add_0_r. destruct x; try done. by destruct (Hx s).
  - cbn [map app join_from]. rewrite IH. cbn [length].
    replace (i + 1 + Z.of_nat (length pre)) with (i + Z.of_nat (S (length pre))) by lia.
    done.
Qed.

(** X12. A record with an array of author records, on which the
    conversion to text of title, doi, journal and publication_date does not
    fail, renders the fixed block: each of the four is the formatted value
    of the key, or N/A when the key is missing, and the Authors line lists
    the names in the order of the array, separated by a comma and a
    space. *)
Theorem format_work_lists_authors (d : pydict) people (names : list string)
    title doi journal publication_date :
  dict_get "authors" d = Some (VList people) ->
  Forall2 (fun a n => exists ad, a = VDict ad /\ dict_get "name" ad = Some (VStr n))
          people names ->
  py_format (default (VStr "N/A") (dict_get "title" d)) = Ok title ->
  py_format (default (VStr "N/A") (dict_get "doi" d)) = Ok doi ->
  py_format (default (VStr "N/A") (dict_get "journal" d)) = Ok journal ->
  py_format (default (VStr "N/A") (dict_get "publication_date" d)) =
    Ok publication_date ->
  format_work (VDict d) =
    Ok (work_block title doi journal (String.concat ", " names) publication_date).
Proof.
  intros Ha Hnames Ht Hdo Hj Hp. unfold format_work.
  rewrite (dict_get_nonempty "authors" d) by (by rewrite Ha).
  rewrite !replacement_field_format, Ht, Hdo, Hj, Hp. simpl.
  rewrite Ha. simpl.
  rewrite (author_names_values people (map VStr names)).
  - simpl. unfold py_join. by rewrite join_from_strings.
  - clear Ha. induction Hnames as [|a n people names Ha _ IH]; simpl;
      by constructor.
Qed.

(** X13. A key that is present with the JSON value null is not treated as
    missing: on a non-empty work record (no field holding an integer beyond
    the conversion limit) title, doi, journal and publication_date then
    render as the text None, not as N/A. *)
Theorem format_work_null_field (d : pydict) :
  d <> [] -> is_work_record (VDict d) = true ->
  exists title doi journal authors publication_date,
    format_work (VDict d) =
      Ok (work_block title doi journal authors publication_date) /\
    (dict_get "title" d = Some VNone -> title = "None") /\
    (dict_get "doi" d = Some VNone -> doi = "None") /\
    (dict_get "journal" d = Some VNone -> journal = "None") /\
    (dict_get "publication_date" d = Some VNone -> publication_date = "None").
Proof.
  intros Hd Hw.
  destruct (format_work_block d Hd Hw)
    as (title & doi & journal & authors & date & Ht & Hdo & Hj & Hp & Hfmt & _).
  exists title, doi, journal, authors, date. split; [exact Hfmt|].
  repeat split; intros Hnull;
    rewrite (replacement_field_null d _ Hnull) in *; congruence.
Qed.

Lemma format_work_to_authors (d : pydict) :
  field_within_limit d "title" = true -> field_within_limit d "doi" = true ->
  field_within_limit d "journal" = true ->
  d <> [] ->
  exists title doi journal,
    format_work (VDict d) =
      (authors ← py_get (VDict d) "authors" (VList []);
       people ← py_iter authors;
       names ← result_mapM (fun author => py_getitem author "name") people;
       joined ← py_join ", " names;
       publication_date ← replacement_field (VDict d) "publication_date";
       Ok (work_block title doi journal joined publication_date)).
Proof.
  intros Htitle Hdoi Hjournal Hd.
  destruct (replacement_field_within_limit d "title" Htitle) as [title Ht].
  destruct (replacement_field_within_limit d "doi" Hdoi) as [doi Hdo].
  destruct (replacement_field_within_limit d "journal" Hjournal) as [journal Hj].
  exists title, doi, journal. unfold format_work.
  assert (Hb : py_bool (VDict d) = true) by (by destruct d).
  by rewrite Hb, Ht, Hdo, Hj.
Qed.

(** X14. An author record without a [name] key makes [format_work] raise
    [KeyError] for [name], once title, doi and journal, which are converted
    before the authors are read, hold no integer beyond the conversion
    limit: the name is read by subscript, with no placeholder. *)
Theorem format_work_author_without_name (d : pydict) pre a post :
  field_within_limit d "title" = true -> field_within_limit d "doi" = true ->
  field_within_limit d "journal" = true ->
  dict_get "authors" d = Some (VList (pre ++ VDict a :: post)) ->
  Forall (fun x => exists ad, x = VDict ad /\ is_Some (dict_get "name" ad)) pre ->
  dict_get "name" a = None ->
  format_work (VDict d) = Raise (KeyError "name").
Proof.
  intros Htitle Hdoi Hjournal Ha Hpre Hname.
  assert (Hd : d <> []) by (intros ->; discriminate).
  destruct (format_work_to_authors d Htitle Hdoi Hjournal Hd) as (t & o & j & ->).
  simpl. rewrite Ha. simpl.
  rewrite (result_mapM_first_error _ pre (VDict a) post (KeyError "name")); [done| |].
  - eapply Forall_impl; [exact Hpre|]. intros x (ad & -> & [v Hv]).
    exists v. simpl. by rewrite Hv.
  - simpl. by rewrite Hname.
Qed.

(** X15. When every author record has a [name] but one of the names is not
    a string (null, a number), [format_work] raises the [TypeError] of
    [join], which reports the position of the first such name and its type,
    once title, doi and journal, which are converted before the authors are
    read, hold no integer beyond the conversion limit. *)
Theorem format_work_name_not_string (d : pydict) people (pre : list string) x post :
  field_within_limit d "title" = true -> field_within_limit d "doi" = true ->
  field_within_limit d "journal" = true ->
  dict_get "authors" d = Some (VList people) ->
  Forall2 (fun a v => exists ad, a = VDict ad /\ dict_get "name" ad = Some v)
          people (map VStr pre ++ x :: post) ->
  (forall s, x <> VStr s) ->
  format_work (VDict d) =
    Raise (TypeError
             ("sequence item " +:+ int_str (Z.of_nat (length pre)) +:+
              ": expected str instance, " +:+ type_name x +:+ " found")).
Proof.
  intros Htitle Hdoi Hjournal Ha Hnames Hx.
  assert (Hd : d <> []) by (intros ->; discriminate).
  destruct (format_work_to_authors d Htitle Hdoi Hjournal Hd) as (t & o & j & ->).
  simpl. rewrite Ha. simpl.
  rewrite (author_names_values _ _ Hnames). simpl.
  unfold py_join. by rewrite (join_from_not_string 0 ", " pre x post Hx).
Qed.

(** X16. The formatter gives no partial output: when the records before
    some record of the results render and that record raises, the whole of
    [format_works_response] raises that error. *)
Theorem format_works_response_first_error (d : pydict) pre w post err :
  dict_get "results" d = Some (VList (pre ++ w :: post)) ->
  Forall (fun x => exists s, format_work x = Ok s) pre ->
  format_work w = Raise err ->
  format_works_response (VDict d) = Raise err.
Proof.
  intros Hr Hpre Hw. unfold format_works_response. simpl. rewrite Hr. simpl.
  by rewrite (result_mapM_first_error format_work pre w post err).
Qed.

(** X17. On a value that is not an object [format_work] gives the
    empty-record text when the value is empty (null, false, zero, an empty
    string or array) and otherwise raises [AttributeError] for the missing
    [get] method, naming the type of the value. *)
Theorem format_work_not_object (data : value) :
  (forall d, data <> VDict d) ->
  format_work data =
    if py_bool data
    then Raise (AttributeError
                  ("'" +:+ type_name data +:+ "' object has no attribute 'get'"))
    else Ok "No data found.".
Proof.
  intros Hd. unfold format_work.
  destruct (py_bool data) eqn:Hb; simpl; [|done].
  destruct data; try done. by destruct (Hd d).
Qed.

(** X18. An [authors] key that is present with null, a boolean or a number
    makes [format_work] raise [TypeError], once title, doi and journal,
    which are converted before the authors are read, hold no integer beyond
    the conversion limit: the value is iterated as it is, the empty default
    applies to a missing key only. *)
Theorem format_work_authors_not_iterable (d : pydict) a :
  field_within_limit d "title" = true -> field_within_limit d "doi" = true ->
  field_within_limit d "journal" = true ->
  dict_get "authors" d = Some a ->
  a = VNone \/ (exists b, a = VBool b) \/ (exists n, a = VInt n) \/
    (exists f, a = VFloat f) ->
  format_work (VDict d) =
    Raise (TypeError ("'" +:+ type_name a +:+ "' object is not iterable")).
Proof.
  intros Htitle Hdoi Hjournal Ha Hkind.
  assert (Hd : d <> []) by (intros ->; discriminate).
  destruct (format_work_to_authors d Htitle Hdoi Hjournal Hd) as (t & o & j & ->).
  simpl. rewrite Ha. simpl.
  destruct Hkind as [->|[[b ->]|[[n ->]|[f ->]]]]; reflexivity.
Qed.

(** X20. A title, doi or journal that is an integer of more than 4300
    digits makes [format_work] raise the [ValueError] of the conversion to
    text, provided the fields before it in the block convert; this happens
    before the authors are read, so whatever the authors are. *)
Theorem format_work_int_beyond_limit (d : pydict) n :
  int_str_bound <= Z.abs n ->
  let limit_error :=
    ValueError ("Exceeds the limit (4300 digits) for integer string conversion; " +:+
                "use sys.set_int_max_str_digits() to increase the limit") in
  (dict_get "title" d = Some (VInt n) -> format_work (VDict d) = Raise limit_error) /\
  (field_within_limit d "title" = true -> dict_get "doi" d = Some (VInt n) ->
   format_work (VDict d) = Raise limit_error) /\
  (field_within_limit d "title" = true -> field_within_limit d "doi" = true ->
   dict_get "journal" d = Some (VInt n) ->
   format_work (VDict d) = Raise limit_error).
Proof.
  intros Hn limit_error.
  assert (Hraise : forall k, dict_get k d = Some (VInt n) ->
            py_bool (VDict d) = true /\
            replacement_field (VDict d) k = Raise limit_error).
  { intros k Hget. split.
    - apply (dict_get_nonempty k). by rewrite Hget.
    - rewrite replacement_field_format, Hget. simpl. unfold py_int_str.
      destruct (Z.abs n <? int_str_bound) eqn:Hlt; [|done].
      apply Z.ltb_lt in Hlt. lia. }
  repeat split.
  - intros Hget. destruct (Hraise _ Hget) as [Hb Hk].
    unfold format_work. by rewrite Hb, Hk.
  - intros Htitle Hget. destruct (Hraise _ Hget) as [Hb Hk].
    destruct (replacement_field_within_limit d "title" Htitle) as [t Ht].
    unfold format_work. by rewrite Hb, Ht, Hk.
  - intros Htitle Hdoi Hget. destruct (Hraise _ Hget) as [Hb Hk].
    destruct (replacement_field_within_limit d "title" Htitle) as [t Ht].
    destruct (replacement_field_within_limit d "doi" Hdoi) as [o Ho].
    unfold format_work. by rewrite Hb, Ht, Ho, Hk.
Qed.

(** X19. A [results] key that is present with null, a boolean or a number
    makes [format_works_response] raise [TypeError]; such an object has the
    key, so it is a value [openalex_search] returns. *)
Theorem format_works_response_results_not_iterable (d : pydict) v :
  dict_get "results" d = Some v ->
  v = VNone \/ (exists b, v = VBool b) \/ (exists n, v = VInt n) \/
    (exists f, v = VFloat f) ->
  format_works_response (VDict d) =
    Raise (TypeError ("'" +:+ type_name v +:+ "' object is not iterable")) /\
  py_bool (VDict d) = true /\ py_contains "results" (VDict d) = Ok true.
Proof.
  intros Hr Hkind. split; [|split].
  - unfold format_works_response. simpl. rewrite Hr. simpl.
    destruct Hkind as [->|[[b ->]|[[n ->]|[f ->]]]]; reflexivity.
  - apply (dict_get_nonempty "results"). by rewrite Hr.
  - simpl. rewrite bool_decide_true; [done|]. by rewrite Hr.
Qed.

End Properties.

(** * Closed instances *)

#[local] Existing Instance sample_runtime.

(** C1 at venues: the first call after loading, with no caller mapping. *)
Lemma openalex_search_no_default_entry_venues :
  openalex_search (server_ok one_page) "q" "venues" None init_state =
    (Raise (KeyError "venues"), init_state).
Proof.
  apply (openalex_search_no_default_entry (server_ok one_page) "q" "venues" "/venues");
    reflexivity.
Defined.

(** C2 as stated fails: one call on works without a caller mapping and the
    value of [PARAMS] is no longer what it was. *)
Lemma PARAMS_changed_by_default_call :
  PARAMS_value (snd (openalex_search (server_ok one_page) "q" "works" None init_state))
    <> PARAMS_value init_state.
Proof.
  intros Heq. apply (f_equal (fun m => m !! "works")) in Heq.
  vm_compute in Heq. discriminate.
Qed.

Lemma openalex_search_default_params_shared_works :
  let st1 := snd (openalex_search (server_ok one_page) "a" "works" None init_state) in
  let st2 := snd (openalex_search (server_ok one_page) "b" "works" None st1) in
  heap st1 = <[works_params := dict_set "search" (VStr "a") works_defaults]> (heap init_state) /\
  PARAMS_value st1 !! "works" = Some (dict_set "search" (VStr "a") works_defaults) /\
  (forall k, k <> "search" ->
     dict_get k (dict_set "search" (VStr "a") works_defaults) = dict_get k works_defaults) /\
  (forall e', e' <> "works" -> PARAMS_value st1 !! e' = PARAMS_value init_state !! e') /\
  sent st1 = (sent init_state ++
              [search_request "/works" (dict_set "search" (VStr "a") works_defaults)])%list /\
  sent st2 = (sent st1 ++
              [search_request "/works" (dict_set "search" (VStr "b") works_defaults)])%list.
Proof.
  apply (openalex_search_default_params_shared (server_ok one_page)
           "a" "b" "works" "/works" works_params works_defaults init_state);
    reflexivity.
Defined.

(** C3 as stated fails: an author record without a name raises [KeyError],
    and a JSON array in place of the response object raises
    [AttributeError]. *)
Lemma format_works_response_raises :
  format_works_response
    (VDict [("results", VList [VDict [("authors", VList [VDict []])]])] : sample_value) =
    Raise (KeyError "name") /\
  format_works_response (VList [] : sample_value) =
    Raise (AttributeError "'list' object has no attribute 'get'").
Proof. split; reflexivity. Qed.

Lemma format_works_response_never_raises_one_page :
  exists blocks,
    Forall2 (fun w b => format_work w = Ok b) (results_of one_page) blocks /\
    format_works_response one_page =
      Ok (match results_of one_page with
          | [] => "No works found."
          | _ => String.concat (nl +:+ "---" +:+ nl) blocks +:+ nl +:+
                 "Number of works found: " +:+
                 int_str (Z.of_nat (length (results_of one_page)))
          end).
Proof. apply (format_works_response_never_raises one_page). reflexivity. Defined.

(** C4 as stated fails: with the caller's mapping [{"page": 2}] on works the
    request carries that mapping and [search] only, not the defaults merged
    with it. *)
Lemma openalex_search_does_not_merge_defaults :
  let st' := snd (openalex_search (server_ok one_page) "q" "works"
                    (Some caller_params) caller_state) in
  sent st' = [search_request "/works" [("page", VInt 2); ("search", VStr "q")]] /\
  spec_query_parameters (heap caller_state !! works_params)
                        (heap caller_state !! caller_params) "q" =
    [("filter", VList [VStr "doi"; VStr "title"; VStr "abstract"]);
     ("sort", VList [VStr "relevance"; VStr "date"]);
     ("page", VInt 2); ("per_page", VInt 10); ("search", VStr "q")] /\
  sent st' <>
    [search_request "/works"
       (spec_query_parameters (heap caller_state !! works_params)
                              (heap caller_state !! caller_params) "q")].
Proof.
  split; [reflexivity|]. split; [reflexivity|].
  vm_compute. discriminate.
Qed.

Lemma openalex_search_sent_parameters_caller :
  sent (snd (openalex_search (server_ok one_page) "q" "works"
               (Some caller_params) caller_state)) =
    (sent caller_state ++
     [search_request "/works" (dict_set "search" (VStr "q") [("page", VInt 2)])])%list /\
  dict_get "search" (dict_set "search" (VStr "q") [("page", VInt 2)]) = Some (VStr "q") /\
  (forall k, k <> "search" ->
     dict_get k (dict_set "search" (VStr "q") [("page", VInt 2)]) =
     dict_get k [("page", VInt 2)]).
Proof.
  apply (openalex_search_sent_parameters (server_ok one_page) "q" "works"
           (Some caller_params) "/works" caller_params [("page", VInt 2)] caller_state);
    reflexivity.
Defined.

(** C5 as stated fails: a record without authors has an empty Authors
    line, and the placeholder does not occur on it. *)
Lemma format_work_missing_authors_empty :
  format_work (VDict [("title", VStr "A")] : sample_value) =
    Ok (work_block "A" "N/A" "N/A" "" "N/A") /\
  contains "Authors: N/A" (work_block "A" "N/A" "N/A" "" "N/A") = false /\
  contains ("Authors: " +:+ nl) (work_block "A" "N/A" "N/A" "" "N/A") = true.
Proof. repeat split; reflexivity. Qed.

Lemma format_work_missing_fields_title_only :
  exists title doi journal authors publication_date,
    format_work (VDict [("title", VStr "A")] : sample_value) =
      Ok (work_block title doi journal authors publication_date) /\
    (dict_get "title" [("title", VStr "A")] = None -> title = "N/A") /\
    (dict_get "doi" [("title", VStr "A")] = None -> doi = "N/A") /\
    (dict_get "journal" [("title", VStr "A")] = None -> journal = "N/A") /\
    (dict_get "publication_date" [("title", VStr "A")] = None ->
     publication_date = "N/A") /\
    (dict_get "authors" [("title", VStr "A")] = None -> authors = "").
Proof.
  apply (format_work_missing_fields [("title", VStr "A")]);
    [discriminate | reflexivity].
Defined.

Lemma openalex_search_invalid_endpoint_nope :
  openalex_search (server_ok one_page) "q" "nope" None init_state =
    (Raise (ValueError "Invalid endpoint: nope"), init_state) /\
  sent (snd (openalex_search (server_ok one_page) "q" "nope" None init_state)) =
    sent init_state.
Proof.
  apply (openalex_search_invalid_endpoint (server_ok one_page) "q" "nope" None init_state).
  intros Hin. repeat (apply elem_of_cons in Hin as [Hin|Hin]; [discriminate|]).
  by apply elem_of_nil in Hin.
Defined.

Lemma openalex_search_empty_result_empty_object :
  fst (openalex_search (server_ok (VDict [])) "q" "works" None init_state) =
    Raise (ValueError "No data found for query: q").
Proof.
  apply (openalex_search_empty_result (server_ok (VDict [])) "q" "works" None init_state
           {| status_code := 200; json_body := Some (VDict []) |} (VDict [])).
  - vm_compute. discriminate.
  - reflexivity.
  - simpl. lia.
  - reflexivity.
  - right. left. exists []. split; reflexivity.
Defined.

(** C7 as stated fails on a body that is neither empty nor a container of
    keys: on the number 1 the membership test raises [TypeError], and the
    string "results", which has no key at all, is returned as the value of
    the call. *)
Lemma openalex_search_scalar_bodies :
  fst (openalex_search (server_ok (VInt 1)) "q" "works" None init_state) =
    Raise (TypeError "argument of type 'int' is not iterable") /\
  fst (openalex_search (server_ok (VStr "results")) "q" "works" None init_state) =
    Ok (VStr "results").
Proof. split; reflexivity. Qed.

Lemma format_works_response_no_results_empty_array :
  format_works_response (VDict [("results", VList [])] : sample_value) =
    Ok "No works found.".
Proof. apply (format_works_response_no_results [("results", VList [])]). reflexivity. Defined.

(** C10 as stated fails on an endpoint that is not known: the call is
    rejected before the assignment and the caller's mapping [{"page": 2}]
    is left without a [search] key. *)
Lemma openalex_search_rejected_keeps_caller_params :
  let out := openalex_search (server_ok one_page) "q" "nope"
               (Some caller_params) caller_state in
  fst out = Raise (ValueError "Invalid endpoint: nope") /\
  heap (snd out) !! caller_params = Some [("page", VInt 2)] /\
  dict_get "search" [("page", VInt 2)] = None.
Proof. repeat split; reflexivity. Qed.

Lemma openalex_search_mutates_caller_params_on_404 :
  let st' := snd (openalex_search server_404 "q" "works" (Some caller_params) caller_state) in
  heap st' = <[caller_params := dict_set "search" (VStr "q") [("page", VInt 2)]]>
               (heap caller_state) /\
  exists d',
    heap st' !! caller_params = Some d' /\
    dict_get "search" d' = Some (VStr "q") /\
    (forall k, k <> "search" -> dict_get k d' = dict_get k [("page", VInt 2)]).
Proof.
  apply (openalex_search_mutates_caller_params server_404 "q" "works" "/works"
           caller_params [("page", VInt 2)] caller_state);
    reflexivity.
Defined.

(** ** Instances of the further properties *)

Lemma fetch_openalex_data_status_error_404 :
  fst (fetch_openalex_data server_404 "/works" None init_state) =
    Raise (HTTPStatusError 404).
Proof.
  apply (fetch_openalex_data_status_error server_404 "/works" None init_state
           {| status_code := 404; json_body := Some (VDict []) |}).
  - reflexivity.
  - simpl. lia.
Defined.

Lemma openalex_search_returns_body_one_page :
  fst (openalex_search (server_ok one_page) "q" "works" None init_state) = Ok one_page.
Proof.
  apply (openalex_search_returns_body (server_ok one_page) "q" "works" None init_state
           {| status_code := 200; json_body := Some one_page |}
           [("results", VList [VDict [("title", VStr "A")]])]).
  - vm_compute. discriminate.
  - reflexivity.
  - simpl. lia.
  - reflexivity.
  - by eexists.
Defined.

Lemma openalex_search_ok_inv_one_page :
  let out := openalex_search (server_ok one_page) "q" "works" None init_state in
  is_Some (ENDPOINTS !! "works") /\
  (exists req, sent (snd out) = (sent init_state ++ [req])%list) /\
  (exists r, server_ok one_page (sent (snd out)) = Some r /\
             200 <= status_code r <= 299 /\ json_body r = Some one_page) /\
  py_bool one_page = true /\
  py_contains "results" one_page = Ok true.
Proof.
  apply (openalex_search_ok_inv (server_ok one_page) "q" "works" None init_state one_page).
  reflexivity.
Defined.

Lemma openalex_search_propagates_fetch_error_404 :
  fst (openalex_search server_404 "q" "works" None init_state) =
    Raise (HTTPStatusError 404).
Proof.
  apply (openalex_search_propagates_fetch_error server_404 "q" "works" None init_state
           "/works" works_params (HTTPStatusError 404));
    reflexivity.
Defined.

Lemma defaults_preserved_run_calls_sample :
  defaults_preserved
    (run_calls (server_ok one_page)
       [{| call_query := "a"; call_endpoint := "works"; call_params := None |};
        {| call_query := "b"; call_endpoint := "nope";
           call_params := Some caller_params |};
        {| call_query := "c"; call_endpoint := "authors";
           call_params := Some caller_params |};
        {| call_query := "d"; call_endpoint := "authors"; call_params := None |}]
       caller_state).
Proof.
  apply (defaults_preserved_run_calls (server_ok one_page)).
  intros e l Hl. unfold PARAMS in Hl.
  apply lookup_insert_Some in Hl as [[_ <-]|[_ Hl]];
    [|apply lookup_insert_Some in Hl as [[_ <-]|[_ Hl]];
      [|by rewrite lookup_empty in Hl]];
    eexists _, _; repeat split; reflexivity.
Defined.

Lemma openalex_search_caller_params_frame_sample :
  PARAMS_value (snd (openalex_search (server_ok one_page) "q" "works"
                       (Some caller_params) caller_state)) =
  PARAMS_value caller_state.
Proof.
  apply (openalex_search_caller_params_frame (server_ok one_page) "q" "works"
           caller_params caller_state).
  intros e' He'. unfold PARAMS in He'.
  apply lookup_insert_Some in He' as [[_ He']|[_ He']]; [discriminate|].
  apply lookup_insert_Some in He' as [[_ He']|[_ He']]; [discriminate|].
  by rewrite lookup_empty in He'.
Defined.

Lemma format_work_lists_authors_two :
  format_work (VDict [("title", VStr "A");
                      ("authors", VList [VDict [("name", VStr "X")];
                                         VDict [("name", VStr "Y")]])]) =
    Ok (work_block "A" "N/A" "N/A" "X, Y" "N/A").
Proof.
  apply (format_work_lists_authors
           [("title", VStr "A");
            ("authors", VList [VDict [("name", VStr "X")]; VDict [("name", VStr "Y")]])]
           [VDict [("name", VStr "X")]; VDict [("name", VStr "Y")]] ["X"; "Y"]
           "A" "N/A" "N/A" "N/A").
  - reflexivity.
  - repeat (constructor; [by eexists|]). constructor.
  - reflexivity.
  - reflexivity.
  - reflexivity.
  - reflexivity.
Defined.

Lemma format_work_null_field_doi :
  exists title doi journal authors publication_date,
    format_work (VDict [("doi", VNone)]) =
      Ok (work_block title doi journal authors publication_date) /\
    (dict_get "title" [("doi", VNone)] = Some VNone -> title = "None") /\
    (dict_get "doi" [("doi", VNone)] = Some VNone -> doi = "None") /\
    (dict_get "journal" [("doi", VNone)] = Some VNone -> journal = "None") /\
    (dict_get "publication_date" [("doi", VNone)] = Some VNone ->
     publication_date = "None").
Proof.
  apply (format_work_null_field [("doi", VNone)]); [discriminate | reflexivity].
Defined.

Lemma format_work_author_without_name_second :
  format_work (VDict [("authors", VList [VDict [("name", VStr "X")]; VDict []])]) =
    Raise (KeyError "name").
Proof.
  apply (format_work_author_without_name
           [("authors", VList [VDict [("name", VStr "X")]; VDict []])]
           [VDict [("name", VStr "X")]] [] []).
  - reflexivity.
  - reflexivity.
  - reflexivity.
  - reflexivity.
  - constructor; [|constructor]. eexists. split; [reflexivity|]. by eexists.
  - reflexivity.
Defined.

Lemma format_work_name_not_string_null :
  format_work (VDict [("authors", VList [VDict [("name", VStr "X")];
                                         VDict [("name", VNone)]])]) =
    Raise (TypeError "sequence item 1: expected str instance, NoneType found").
Proof.
  apply (format_work_name_not_string
           [("authors", VList [VDict [("name", VStr "X")]; VDict [("name", VNone)]])]
           [VDict [("name", VStr "X")]; VDict [("name", VNone)]] ["X"] VNone []).
  - reflexivity.
  - reflexivity.
  - reflexivity.
  - reflexivity.
  - repeat (constructor; [by eexists|]). constructor.
  - discriminate.
Defined.

Lemma format_works_response_first_error_second :
  format_works_response
    (VDict [("results", VList [VDict [("title", VStr "A")]; VInt 1])]) =
    Raise (AttributeError "'int' object has no attribute 'get'").
Proof.
  apply (format_works_response_first_error
           [("results", VList [VDict [("title", VStr "A")]; VInt 1])]
           [VDict [("title", VStr "A")]] (VInt 1) []).
  - reflexivity.
  - constructor; [|constructor]. by eexists.
  - reflexivity.
Defined.

Lemma format_work_not_object_int :
  format_work (VInt 1) = Raise (AttributeError "'int' object has no attribute 'get'").
Proof. apply (format_work_not_object (VInt 1)). discriminate. Defined.

Lemma format_work_authors_not_iterable_null :
  format_work (VDict [("authors", VNone)]) =
    Raise (TypeError "'NoneType' object is not iterable").
Proof.
  apply (format_work_authors_not_iterable [("authors", VNone)] VNone);
    [reflexivity | reflexivity | reflexivity | reflexivity | by left].
Defined.

Lemma format_works_response_results_not_iterable_null :
  format_works_response (VDict [("results", VNone)]) =
    Raise (TypeError "'NoneType' object is not iterable") /\
  py_bool (VDict [("results", VNone)]) = true /\
  py_contains "results" (VDict [("results", VNone)]) = Ok true.
Proof.
  apply (format_works_response_results_not_iterable [("results", VNone)] VNone);
    [reflexivity | by left].
Defined.

(** A title of 4301 digits, with an author record that has no name: the
    conversion of the title raises first. *)
Lemma format_work_int_beyond_limit_title :
  format_work (VDict [("title", VInt (10 ^ 4300)); ("authors", VList [VDict []])]) =
    Raise (ValueError
             ("Exceeds the limit (4300 digits) for integer string conversion; " +:+
              "use sys.set_int_max_str_digits() to increase the limit")).
Proof.
  refine (proj1 (format_work_int_beyond_limit
                   [("title", VInt (10 ^ 4300)); ("authors", VList [VDict []])]
                   (10 ^ 4300) _) _).
  - apply Z.leb_le. vm_compute. reflexivity.
  - reflexivity.
Defined.
